(** * edk2_coverage: the Edk2Coverage invocable

    A shallow embedding of [edk2toolext/invocables/edk2_coverage.py].

    The Python instance is modelled by its attribute dictionary (a [gmap]
    from attribute names to values) together with its platform settings
    object.  Methods are computations in a small monad that threads the
    instance, may raise a Python exception, and records what the method
    does to the outside world: log records, attribute writes and the one
    external process it starts. *)

From Stdlib Require Import ZArith String Ascii List.
From stdpp Require Import gmap strings list fin_maps pretty.

Local Open Scope Z_scope.

(** ** Python values, exceptions and observable events *)

(** The values an attribute can hold here: [None], a [str] (what argparse
    gives for an option declared with [type=str]) or a list of [str]. *)
Inductive value : Type :=
| VNone
| VStr (s : string)
| VList (items : list string).

Global Instance value_eq_dec : EqDecision value.
Proof. solve_decision. Defined.

Inductive exn : Type :=
| AttributeError (name : string)
| TypeError.

(** Levels of the [logging] calls the module makes. *)
Inductive level : Type := DEBUG | ERROR | CRITICAL.

Inductive event : Type :=
| Log (lvl : level) (msg : string)
| SetAttr (name : string) (v : value)
| Spawn (cmd args : string).

Global Instance level_eq_dec : EqDecision level.
Proof. solve_decision. Defined.

Global Instance event_eq_dec : EqDecision event.
Proof. solve_decision. Defined.

(** ** CoverageSettingsManager (lines 23-55)

    The two overridable accessors; a platform supplies its own record. *)
Record CoverageSettingsManager : Type := {
  GetCoverageExclusionList : list string;
  GetCoverageInclusionList : list string
}.

(** The base class: both accessors return the empty list. *)
Definition CoverageSettingsManager_base : CoverageSettingsManager :=
  {| GetCoverageExclusionList := []; GetCoverageInclusionList := [] |}.

(** ** The instance and the method monad *)

Record Edk2Coverage : Type := {
  dict : gmap string value;
  PlatformSettings : CoverageSettingsManager
}.

Record result (A : Type) : Type := {
  outcome : exn + A;
  final : Edk2Coverage;
  events : list event
}.
Arguments outcome {A} _.
Arguments final {A} _.
Arguments events {A} _.

Definition M (A : Type) : Type := Edk2Coverage -> result A.

Definition ret {A} (a : A) : M A :=
  fun self => {| outcome := inr a; final := self; events := [] |}.

Definition raise {A} (e : exn) : M A :=
  fun self => {| outcome := inl e; final := self; events := [] |}.

Definition bind {A B} (m : M A) (k : A -> M B) : M B :=
  fun self =>
    let r := m self in
    match outcome r with
    | inl e => {| outcome := inl e; final := final r; events := events r |}
    | inr a =>
        let r' := k a (final r) in
        {| outcome := outcome r'; final := final r';
           events := events r ++ events r' |}
    end.

Notation "x <- c1 ;; c2" := (bind c1 (fun x => c2))
  (at level 100, c1 at next level, right associativity).
Notation "c1 ;; c2" := (bind c1 (fun _ => c2))
  (at level 100, right associativity).

Definition emit (e : event) : M unit :=
  fun self => {| outcome := inr tt; final := self; events := [e] |}.

(** [self.name] *)
Definition getattr (name : string) : M value :=
  fun self =>
    match dict self !! name with
    | Some v => ret v self
    | None => raise (AttributeError name) self
    end.

(** [self.name = v] *)
Definition setattr (name : string) (v : value) : M unit :=
  fun self =>
    {| outcome := inr tt;
       final := {| dict := <[name := v]> (dict self);
                   PlatformSettings := PlatformSettings self |};
       events := [SetAttr name v] |}.

(** [self.PlatformSettings] *)
Definition getPlatformSettings : M CoverageSettingsManager :=
  fun self => ret (PlatformSettings self) self.

(** [s + v] for a [str] literal [s]: concatenation, or [TypeError] when
    [v] is not a [str]. *)
Definition str_add (s : string) (v : value) : M string :=
  match v with
  | VStr t => ret (s +:+ t)
  | VNone | VList _ => raise TypeError
  end.

Definition logging_error (msg : string) : M unit := emit (Log ERROR msg).
Definition logging_debug (msg : string) : M unit := emit (Log DEBUG msg).
Definition logging_critical (msg : string) : M unit := emit (Log CRITICAL msg).

(** The line feed of the ["\n"] escape. *)
Definition LF : string := String "010"%char EmptyString.

(** ** The filter expression (lines 112-120) *)

(** One iteration of either loop: the separator is added when the
    accumulator is not empty, then the sign and the pattern. *)
Definition add_filter (sign : string) (file_filters file_path : string) : string :=
  let file_filters :=
    if decide (file_filters ≠ "") then file_filters +:+ ";" else file_filters in
  file_filters +:+ (sign +:+ file_path).

Definition build_file_filters (excludes includes : list string) : string :=
  let file_filters := "" in
  let file_filters := foldl (add_filter "-") file_filters excludes in
  foldl (add_filter "+") file_filters includes.

(** The two lists (lines 102-106): [includes] starts empty, [excludes]
    starts with the two baseline patterns; [+=] extends each by what the
    platform returns.  The result is the pair (includes, excludes). *)
Definition collect_lists (ps : CoverageSettingsManager) : list string * list string :=
  let includes := [] in
  let excludes := ["*AutoGen.c"; "*UnitTest*"] in
  let includes := includes ++ GetCoverageInclusionList ps in
  let excludes := excludes ++ GetCoverageExclusionList ps in
  (includes, excludes).

(** The filter expression [Go] builds for a platform. *)
Definition Go_file_filters (ps : CoverageSettingsManager) : string :=
  let '(includes, excludes) := collect_lists ps in
  build_file_filters excludes includes.

(** ** What the specification says the filter expression is

    Each exclusion prefixed with [-], each inclusion with [+], exclusions
    first, joined with [;]. *)
Definition filter_tokens (excludes includes : list string) : list string :=
  map (String.append "-") excludes ++ map (String.append "+") includes.

Definition filter_expression_spec (excludes includes : list string) : string :=
  String.concat ";" (filter_tokens excludes includes).

(** ** argparse, as far as this module uses it

    [argparse] is the Python standard library.  A parser is the list of
    arguments registered so far; every argument of this module has one
    option string, a destination, [type=str] and a default.  Parsing first
    gives every destination its default (the first registration of a
    destination wins), then stores the [str] given with each option of the
    command line, in order; an option no argument declares is an error. *)
Record argument : Type := {
  option_string : string;
  dest : string;
  default : value;
  help : string
}.

Definition add_argument (parserObj : list argument) (a : argument) : list argument :=
  parserObj ++ [a].

Definition set_default (ns : gmap string value) (a : argument) : gmap string value :=
  match ns !! dest a with
  | Some _ => ns
  | None => <[dest a := default a]> ns
  end.

Definition find_option (parserObj : list argument) (o : string) : option argument :=
  snd <$> list_find (fun a => option_string a = o) parserObj.

Fixpoint store_options (parserObj : list argument) (argv : list (string * string))
    (ns : gmap string value) : option (gmap string value) :=
  match argv with
  | [] => Some ns
  | (o, s) :: argv' =>
      match find_option parserObj o with
      | Some a => store_options parserObj argv' (<[dest a := VStr s]> ns)
      | None => None
      end
  end.

Definition parse_args (parserObj : list argument) (argv : list (string * string))
    : option (gmap string value) :=
  store_options parserObj argv (foldl set_default ∅ parserObj).

(** [args.name] on the namespace argparse returns. *)
Definition ns_getattr (args : gmap string value) (name : string) : M value :=
  match args !! name with
  | Some v => ret v
  | None => raise (AttributeError name)
  end.

(** The names of the three configuration attributes. *)
Definition config_fields : list string :=
  ["coverage_files"; "report_type"; "output_dir"].

(** How many times a run assigned attribute [name]. *)
Definition is_write (name : string) (e : event) : bool :=
  match e with
  | SetAttr n _ => bool_decide (n = name)
  | _ => false
  end.

Definition writes_to (name : string) (evs : list event) : nat :=
  length (List.filter (is_write name) evs).

Definition is_error_log (e : event) : bool :=
  match e with
  | Log ERROR _ => true
  | _ => false
  end.

Definition is_spawn (e : event) : bool :=
  match e with
  | Spawn _ _ => true
  | _ => false
  end.

(** ** Edk2Coverage (lines 58-134) *)

Section Invocable.

(** [RunCmd] of edk2toollib runs the command and returns its exit code;
    the code it returns is taken as given. *)
Variable RunCmd_returncode : string -> string -> Z.

(** What [super().AddCommandLineOptions] registers and what
    [super().RetrieveCommandLineOptions] does: the base class
    [Edk2MultiPkgAwareInvocable] is not part of this module. *)
Variable inherited_arguments : list argument.
Variable inherited_RetrieveCommandLineOptions : gmap string value -> M unit.

Definition RunCmd (cmd args : string) : M Z :=
  emit (Spawn cmd args) ;;
  ret (RunCmd_returncode cmd args).

(** Lines 65-74. *)
Definition AddCommandLineOptions (parserObj : list argument) : list argument :=
  let parserObj := add_argument parserObj
    {| option_string := "--coverage-files"; dest := "coverage_files";
       default := VStr "Build/**/coverage.xml";
       help := "Provide the paths to the coverage files" |} in
  let parserObj := add_argument parserObj
    {| option_string := "--report-type"; dest := "report_type";
       default := VStr "Cobertura";
       help := "Provide the type of report desired such as Cobertura or Html" |} in
  let parserObj := add_argument parserObj
    {| option_string := "--output-dir"; dest := "output_dir";
       default := VStr "Build/Coverage";
       help := "Provide directory where resulting files are placed" |} in
  foldl add_argument parserObj inherited_arguments.

(** Lines 76-81. *)
Definition RetrieveCommandLineOptions (args : gmap string value) : M unit :=
  v <- ns_getattr args "coverage_files" ;;
  setattr "coverage_files" v ;;
  v <- ns_getattr args "report_type" ;;
  setattr "report_type" v ;;
  v <- ns_getattr args "output_dir" ;;
  setattr "output_dir" v ;;
  inherited_RetrieveCommandLineOptions args.

(** Lines 83-97. *)
Definition GetVerifyCheckRequired : bool := false.

Definition GetLoggingFileName (loggerType : string) : string := "COVERAGE".

(** Lines 99-134. *)
Definition Go : M Z :=
  ps <- getPlatformSettings ;;
  let '(includes, excludes) := collect_lists ps in
  coverage_files <- getattr "coverage_files" ;;
  if decide (coverage_files = VNone) then
    logging_error ("Path to coverage file is required!" +:+ LF) ;;
    ret (-1)
  else
    let file_filters := build_file_filters excludes includes in
    coverage_files <- getattr "coverage_files" ;;
    args <- str_add " -reports:" coverage_files ;;
    output_dir <- getattr "output_dir" ;;
    flag <- str_add " -targetdir:" output_dir ;;
    let args := args +:+ flag in
    report_type <- getattr "report_type" ;;
    flag <- str_add " -reporttypes:" report_type ;;
    let args := args +:+ flag in
    let args := args +:+ (" -filefilters:" +:+ file_filters) in
    rc <- RunCmd "reportgenerator" args ;;
    if decide (rc = 0) then
      logging_debug "reportgenerator command returned successfully!" ;;
      ret 0
    else
      logging_critical
        ("reportgenerator returned error return value: " +:+ pretty rc) ;;
      ret rc.

End Invocable.

(** The argument string of the specification: the four flags, each one
    space-prefixed token, in this order. *)
Definition reportgenerator_args (coverage_files output_dir report_type filters : string)
    : string :=
  " -reports:" +:+ coverage_files +:+
  " -targetdir:" +:+ output_dir +:+
  " -reporttypes:" +:+ report_type +:+
  " -filefilters:" +:+ filters.

(** An instance whose three configuration attributes are set, for a given
    platform. *)
Definition configured (cf rt od : value) (ps : CoverageSettingsManager) : Edk2Coverage :=
  {| dict := <["output_dir" := od]> (<["report_type" := rt]> (<["coverage_files" := cf]> ∅));
     PlatformSettings := ps |}.

(** A result with one more event in front. *)
Definition prepend {A} (e : event) (r : result A) : result A :=
  {| outcome := outcome r; final := final r; events := e :: events r |}.

(** The log record that follows the external tool's exit code. *)
Definition exit_log (rc : Z) : event :=
  if decide (rc = 0)
  then Log DEBUG "reportgenerator command returned successfully!"
  else Log CRITICAL ("reportgenerator returned error return value: " +:+ pretty rc).

(** The run of [Go] that starts the external tool: the instance holds the
    three strings [cf], [od] and [rt]. *)
Definition Go_invoked (RunCmd_returncode : string -> string -> Z) (self : Edk2Coverage)
    (cf od rt : string) : result Z :=
  let args := reportgenerator_args cf od rt (Go_file_filters (PlatformSettings self)) in
  let rc := RunCmd_returncode "reportgenerator" args in
  {| outcome := inr rc; final := self;
     events := [Spawn "reportgenerator" args; exit_log rc] |}.

(** The run of [Go] that stops at the missing coverage-file glob. *)
Definition Go_missing (self : Edk2Coverage) : result Z :=
  {| outcome := inr (-1); final := self;
     events := [Log ERROR ("Path to coverage file is required!" +:+ LF)] |}.

(** Does the command line [argv] give an option that is stored in [name]? *)
Definition sets_dest (parserObj : list argument) (name : string)
    (argv : list (string * string)) : bool :=
  existsb (fun os => match find_option parserObj (fst os) with
                     | Some a => bool_decide (dest a = name)
                     | None => false
                     end) argv.

(** The three arguments lines 67-72 register, in order. *)
Definition coverage_arguments : list argument :=
  [ {| option_string := "--coverage-files"; dest := "coverage_files";
       default := VStr "Build/**/coverage.xml";
       help := "Provide the paths to the coverage files" |};
    {| option_string := "--report-type"; dest := "report_type";
       default := VStr "Cobertura";
       help := "Provide the type of report desired such as Cobertura or Html" |};
    {| option_string := "--output-dir"; dest := "output_dir";
       default := VStr "Build/Coverage";
       help := "Provide directory where resulting files are placed" |} ].

(** The instance after the three assignments of lines 78-80. *)
Definition assigned (v1 v2 v3 : value) (self : Edk2Coverage) : Edk2Coverage :=
  {| dict := <["output_dir" := v3]>
               (<["report_type" := v2]> (<["coverage_files" := v1]> (dict self)));
     PlatformSettings := PlatformSettings self |}.

(** ** Concrete instances, platforms and command lines *)

(** A platform that overrides both accessors. *)
Definition FooBar_platform : CoverageSettingsManager :=
  {| GetCoverageExclusionList := ["Bar.c"]; GetCoverageInclusionList := ["Foo.c"] |}.

(** The instance after a retrieval of the three defaults. *)
Definition default_instance (ps : CoverageSettingsManager) : Edk2Coverage :=
  configured (VStr "Build/**/coverage.xml") (VStr "Cobertura") (VStr "Build/Coverage") ps.

(** An instance whose coverage-file glob is [None]. *)
Definition unset_instance : Edk2Coverage :=
  configured VNone (VStr "Cobertura") (VStr "Build/Coverage") CoverageSettingsManager_base.

(** A freshly constructed instance: no attribute assigned yet. *)
Definition fresh_instance : Edk2Coverage :=
  {| dict := ∅; PlatformSettings := CoverageSettingsManager_base |}.

(** External tools that succeed, and that fail with exit code 3. *)
Definition tool_ok : string -> string -> Z := fun _ _ => 0.
Definition tool_fails : string -> string -> Z := fun _ _ => 3.

(** A base class that registers one more option and whose retrieval
    assigns one more attribute. *)
Definition sample_inherited_arguments : list argument :=
  [ {| option_string := "--pkg"; dest := "packageList"; default := VList [];
       help := "Packages to use" |} ].

Definition sample_inherited_Retrieve (args : gmap string value) : M unit :=
  v <- ns_getattr args "packageList" ;;
  setattr "requested_package_list" v.

(** The namespace of the command line [--report-type Html]. *)
Definition Html_namespace : gmap string value :=
  <["report_type" := VStr "Html"]>
    (<["packageList" := VList []]>
       (<["output_dir" := VStr "Build/Coverage"]>
          (<["report_type" := VStr "Cobertura"]>
             (<["coverage_files" := VStr "Build/**/coverage.xml"]> ∅)))).


(** An instance whose output directory is [None]. *)
Definition no_output_dir_instance : Edk2Coverage :=
  configured (VStr "c.xml") (VStr "Html") VNone CoverageSettingsManager_base.

Definition is_log (e : event) : bool :=
  match e with
  | Log _ _ => true
  | _ => false
  end.

(** Does the pattern hold the separator character? *)
Fixpoint has_semicolon (s : string) : bool :=
  match s with
  | EmptyString => false
  | String c s' => if Ascii.eqb c ";" then true else has_semicolon s'
  end.

(** The total length of the patterns of a list, each with its sign and
    one separator. *)
Definition tokens_length (l : list string) : nat :=
  foldr (fun p n => (2 + String.length p + n)%nat) 0%nat l.

(** The value the command line [argv] gives option [o]: the last one
    given, or [init] when the option is absent. *)
Definition supplied (o : string) (argv : list (string * string)) (init : option value)
    : option value :=
  foldl (fun acc os => if decide (fst os = o) then Some (VStr (snd os)) else acc)
        init argv.

(** A platform with one more inclusion, or one more exclusion. *)
Definition add_inclusion (ps : CoverageSettingsManager) (p : string)
    : CoverageSettingsManager :=
  {| GetCoverageExclusionList := GetCoverageExclusionList ps;
     GetCoverageInclusionList := GetCoverageInclusionList ps ++ [p] |}.

Definition add_exclusion (ps : CoverageSettingsManager) (p : string)
    : CoverageSettingsManager :=
  {| GetCoverageExclusionList := GetCoverageExclusionList ps ++ [p];
     GetCoverageInclusionList := GetCoverageInclusionList ps |}.



(** An instance that already holds other attributes. *)
Definition used_instance : Edk2Coverage :=
  {| dict := <["Verbose" := VStr "yes"]> (<["coverage_files" := VNone]> ∅);
     PlatformSettings := FooBar_platform |}.

(** The default instance with one more attribute. *)
Definition verbose_default_instance : Edk2Coverage :=
  {| dict := <["Verbose" := VStr "yes"]> (dict (default_instance FooBar_platform));
     PlatformSettings := FooBar_platform |}.

(** One step of the loops on a token that already carries its sign. *)
Definition join_step (acc tok : string) : string :=
  (if decide (acc ≠ "") then acc +:+ ";" else acc) +:+ tok.

(** * Properties *)

(** ** Strings *)

Lemma append_String a s t : String a s +:+ t = String a (s +:+ t).
Proof. reflexivity. Qed.

Lemma append_empty_l s : "" +:+ s = s.
Proof. reflexivity. Qed.

Lemma append_empty_r s : s +:+ "" = s.
Proof. induction s as [|a s IH]; [done|]. by rewrite append_String, IH. Qed.

Lemma append_assoc s t u : (s +:+ t) +:+ u = s +:+ (t +:+ u).
Proof.
  induction s as [|a s IH]; [done|].
  by rewrite !append_String, IH.
Qed.

Lemma append_nonempty_l s t : s ≠ "" -> s +:+ t ≠ "".
Proof. destruct s; [done|]. by rewrite append_String. Qed.

Lemma append_nonempty_r s t : t ≠ "" -> s +:+ t ≠ "".
Proof.
  intros Ht. destruct s; [done|]. by rewrite append_String.
Qed.

(** ** The loops build a join *)

Lemma add_filter_join_step sign acc p :
  add_filter sign acc p = join_step acc (sign +:+ p).
Proof. reflexivity. Qed.

Lemma concat_cons_cons sep x y l :
  String.concat sep (x :: y :: l) = x +:+ sep +:+ String.concat sep (y :: l).
Proof. reflexivity. Qed.

Lemma concat_absorb acc t toks :
  String.concat ";" ((acc +:+ ";" +:+ t) :: toks) = String.concat ";" (acc :: t :: toks).
Proof.
  destruct toks as [|x xs].
  - reflexivity.
  - rewrite (concat_cons_cons _ acc), !(concat_cons_cons _ _ x).
    by rewrite !append_assoc.
Qed.

(** From a non-empty accumulator the loop joins the accumulator with the
    remaining tokens. *)
Lemma foldl_join_step_nonempty toks : forall acc,
  acc ≠ "" ->
  Forall (fun t => t ≠ "") toks ->
  foldl join_step acc toks = String.concat ";" (acc :: toks).
Proof.
  induction toks as [|t toks IH]; intros acc Hacc Htoks.
  - reflexivity.
  - inversion Htoks as [|? ? Ht Htoks']; subst. simpl.
    unfold join_step at 2. rewrite decide_True by done.
    rewrite IH; [|by apply append_nonempty_r|done].
    rewrite append_assoc. apply concat_absorb.
Qed.

Lemma foldl_join_step toks :
  Forall (fun t => t ≠ "") toks ->
  foldl join_step "" toks = String.concat ";" toks.
Proof.
  destruct toks as [|t toks]; intros Htoks; [done|].
  inversion Htoks; subst. simpl.
  unfold join_step at 2. rewrite decide_False by (intros H; by apply H).
  rewrite append_empty_l. by apply foldl_join_step_nonempty.
Qed.

Lemma filter_tokens_nonempty excludes includes :
  Forall (fun t => t ≠ "") (filter_tokens excludes includes).
Proof.
  unfold filter_tokens. apply Forall_app. split; apply Forall_forall;
    intros t [p [<- _]]%list_elem_of_In%in_map_iff; done.
Qed.

Lemma build_file_filters_foldl excludes includes :
  build_file_filters excludes includes
  = foldl join_step "" (filter_tokens excludes includes).
Proof.
  unfold build_file_filters, filter_tokens.
  rewrite foldl_app. change (@map string string) with (@fmap list _ string string).
  by rewrite !foldl_fmap.
Qed.

Lemma build_file_filters_spec excludes includes :
  build_file_filters excludes includes = filter_expression_spec excludes includes.
Proof.
  rewrite build_file_filters_foldl. apply foldl_join_step, filter_tokens_nonempty.
Qed.

(** A join starts with its first piece and ends with its last one. *)
Lemma concat_starts sep toks :
  exists rest, String.concat sep toks = hd "" toks +:+ rest.
Proof.
  destruct toks as [|t [|u toks]]; simpl.
  - by exists "".
  - exists "". by rewrite append_empty_r.
  - by eexists.
Qed.

Lemma concat_ends sep toks :
  exists front, String.concat sep toks = front +:+ List.last toks "".
Proof.
  induction toks as [|t toks IH].
  - by exists "".
  - destruct toks as [|u toks].
    + by exists "".
    + destruct IH as [front IH]. exists (t +:+ sep +:+ front).
      rewrite concat_cons_cons, IH.
      change (List.last (t :: u :: toks) "") with (List.last (u :: toks) "").
      by rewrite !append_assoc.
Qed.

(** ** Running the monad *)

Lemma bind_ret {A B} (a : A) (k : A -> M B) self : bind (ret a) k self = k a self.
Proof. unfold bind, ret. cbn. by destruct (k a self). Qed.

Lemma bind_raise {A B} (e : exn) (k : A -> M B) self :
  bind (raise e) k self = raise e self.
Proof. reflexivity. Qed.

Lemma bind_emit {B} (e : event) (k : unit -> M B) self :
  bind (emit e) k self = prepend e (k tt self).
Proof. reflexivity. Qed.

Lemma bind_setattr {B} name v (k : unit -> M B) self :
  bind (setattr name v) k self
  = prepend (SetAttr name v)
      (k tt {| dict := <[name := v]> (dict self);
               PlatformSettings := PlatformSettings self |}).
Proof. reflexivity. Qed.

Lemma bind_getPlatformSettings {B} (k : CoverageSettingsManager -> M B) self :
  bind getPlatformSettings k self = k (PlatformSettings self) self.
Proof. apply bind_ret. Qed.

Lemma bind_getattr_Some {B} name v (k : value -> M B) self :
  dict self !! name = Some v -> bind (getattr name) k self = k v self.
Proof.
  intros H. unfold bind, getattr. rewrite H. apply (bind_ret v k self).
Qed.

Lemma bind_getattr_None {B} name (k : value -> M B) self :
  dict self !! name = None ->
  bind (getattr name) k self = raise (AttributeError name) self.
Proof. intros H. unfold bind, getattr. by rewrite H. Qed.

Lemma bind_ns_getattr_Some {B} args name v (k : value -> M B) self :
  args !! name = Some v -> bind (ns_getattr args name) k self = k v self.
Proof. intros H. unfold ns_getattr. rewrite H. apply bind_ret. Qed.


(** ** The runs of Go *)

Lemma Go_args_assoc cf od rt ff :
  (((" -reports:" +:+ cf) +:+ " -targetdir:" +:+ od) +:+ " -reporttypes:" +:+ rt)
    +:+ " -filefilters:" +:+ ff
  = reportgenerator_args cf od rt ff.
Proof. unfold reportgenerator_args. by rewrite !append_assoc. Qed.

Ltac read_attr H :=
  first [ rewrite (bind_getattr_Some _ _ _ _ H)
        | rewrite (bind_getattr_None _ _ _ H) ].

(** [Go], one case per value the attributes can hold. *)
Lemma Go_unfold rcf self :
  Go rcf self =
    match dict self !! "coverage_files" with
    | None => raise (AttributeError "coverage_files") self
    | Some VNone => Go_missing self
    | Some (VList _) => raise TypeError self
    | Some (VStr cf) =>
        match dict self !! "output_dir" with
        | None => raise (AttributeError "output_dir") self
        | Some (VStr od) =>
            match dict self !! "report_type" with
            | None => raise (AttributeError "report_type") self
            | Some (VStr rt) => Go_invoked rcf self cf od rt
            | Some _ => raise TypeError self
            end
        | Some _ => raise TypeError self
        end
    end.
Proof.
  unfold Go. rewrite bind_getPlatformSettings.
  unfold collect_lists. cbv beta iota zeta.
  destruct (dict self !! "coverage_files") as [[|cf|l]|] eqn:Hcf; read_attr Hcf;
    [ by rewrite decide_True
    | rewrite decide_False by done; read_attr Hcf
    | rewrite decide_False by done; by read_attr Hcf
    | reflexivity ].
  unfold str_add at 1. rewrite bind_ret.
  destruct (dict self !! "output_dir") as [[|od|l]|] eqn:Hod; read_attr Hod;
    [ reflexivity | | reflexivity | reflexivity ].
  unfold str_add at 1. rewrite bind_ret.
  destruct (dict self !! "report_type") as [[|rt|l]|] eqn:Hrt; read_attr Hrt;
    [ reflexivity | | reflexivity | reflexivity ].
  unfold str_add at 1. rewrite bind_ret.
  rewrite Go_args_assoc.
  unfold RunCmd, Go_invoked, Go_file_filters, collect_lists, exit_log.
  cbv beta iota zeta.
  set (rc := rcf _ _).
  unfold bind, emit, ret, logging_debug, logging_critical; cbn [outcome final events].
  destruct (decide (rc = 0)) as [->|Hrc]; reflexivity.
Qed.

Lemma Go_configured rcf self cf od rt :
  dict self !! "coverage_files" = Some (VStr cf) ->
  dict self !! "output_dir" = Some (VStr od) ->
  dict self !! "report_type" = Some (VStr rt) ->
  Go rcf self = Go_invoked rcf self cf od rt.
Proof. intros Hcf Hod Hrt. by rewrite Go_unfold, Hcf, Hod, Hrt. Qed.

(** A run that starts the tool is the run [Go_invoked]. *)
Lemma Go_spawn_inv rcf self cmd args :
  In (Spawn cmd args) (events (Go rcf self)) ->
  exists cf od rt,
    dict self !! "coverage_files" = Some (VStr cf) /\
    dict self !! "output_dir" = Some (VStr od) /\
    dict self !! "report_type" = Some (VStr rt) /\
    Go rcf self = Go_invoked rcf self cf od rt.
Proof.
  rewrite Go_unfold.
  destruct (dict self !! "coverage_files") as [[|cf|l]|] eqn:Hcf;
    try (cbn [events raise Go_missing In]; intuition discriminate).
  destruct (dict self !! "output_dir") as [[|od|l]|] eqn:Hod;
    try (cbn [events raise In]; tauto).
  destruct (dict self !! "report_type") as [[|rt|l]|] eqn:Hrt;
    try (cbn [events raise In]; tauto).
  intros _. by exists cf, od, rt.
Qed.

Lemma exit_log_not_spawn rc cmd args : exit_log rc ≠ Spawn cmd args.
Proof. unfold exit_log. by destruct (decide (rc = 0)). Qed.

Lemma Go_file_filters_spec ps :
  Go_file_filters ps
  = filter_expression_spec
      (["*AutoGen.c"; "*UnitTest*"] ++ GetCoverageExclusionList ps)
      (GetCoverageInclusionList ps).
Proof. unfold Go_file_filters, collect_lists. apply build_file_filters_spec. Qed.

(** The join of the two baseline tokens and further ones: the baseline,
    then nothing or a separator and the rest. *)
Lemma baseline_prefix toks :
  exists rest,
    String.concat ";" ("-*AutoGen.c" :: "-*UnitTest*" :: toks)
    = "-*AutoGen.c;-*UnitTest*" +:+ rest /\
    (rest = "" \/ exists rest', rest = ";" +:+ rest').
Proof.
  destruct toks as [|t toks].
  - exists "". split; [reflexivity | by left].
  - exists (";" +:+ String.concat ";" (t :: toks)). split; [reflexivity|].
    right. by eexists.
Qed.

Lemma is_spawn_exit_log rc : is_spawn (exit_log rc) = false.
Proof. unfold exit_log. by destruct (decide (rc = 0)). Qed.

Lemma is_write_exit_log name rc : is_write name (exit_log rc) = false.
Proof. unfold exit_log. by destruct (decide (rc = 0)). Qed.

Lemma is_error_log_exit_log rc : is_error_log (exit_log rc) = false.
Proof. unfold exit_log. by destruct (decide (rc = 0)). Qed.

(** The only event of [Go_invoked] that starts a process. *)
Lemma Go_invoked_spawn rcf self cf od rt cmd args :
  In (Spawn cmd args) (events (Go_invoked rcf self cf od rt)) ->
  cmd = "reportgenerator" /\
  args = reportgenerator_args cf od rt (Go_file_filters (PlatformSettings self)).
Proof.
  unfold Go_invoked. cbn [events In]. intros [H|[H|[]]].
  - by injection H as <- <-.
  - by apply exit_log_not_spawn in H.
Qed.

(** [Go] never changes the instance and never assigns an attribute. *)
Lemma Go_frame rcf self :
  final (Go rcf self) = self /\
  forall name, writes_to name (events (Go rcf self)) = 0%nat.
Proof.
  rewrite Go_unfold.
  destruct (dict self !! "coverage_files") as [[|cf|l]|]; try by split.
  destruct (dict self !! "output_dir") as [[|od|l]|]; try by split.
  destruct (dict self !! "report_type") as [[|rt|l]|]; try by split.
  split; [reflexivity|]. intros name.
  unfold writes_to, Go_invoked. cbn [events List.filter is_write].
  by rewrite is_write_exit_log.
Qed.

(** ** Registration and parsing *)

Lemma foldl_add_argument l : forall parserObj,
  foldl add_argument parserObj l = parserObj ++ l.
Proof.
  induction l as [|a l IH]; intros parserObj; simpl.
  - by rewrite app_nil_r.
  - rewrite IH. unfold add_argument. by rewrite <- app_assoc.
Qed.

Lemma AddCommandLineOptions_app inherited parserObj :
  AddCommandLineOptions inherited parserObj
  = parserObj ++ coverage_arguments ++ inherited.
Proof.
  unfold AddCommandLineOptions, add_argument. rewrite foldl_add_argument.
  unfold coverage_arguments. by rewrite <- !app_assoc.
Qed.

Lemma set_default_keep ns a k v :
  ns !! k = Some v -> set_default ns a !! k = Some v.
Proof.
  intros Hk. unfold set_default.
  destruct (ns !! dest a) eqn:Ha; [done|].
  rewrite lookup_insert_ne; [done|]. intros Heq. congruence.
Qed.

Lemma foldl_set_default_keep l : forall ns k v,
  ns !! k = Some v -> foldl set_default ns l !! k = Some v.
Proof.
  induction l as [|a l IH]; intros ns k v Hk; simpl; [done|].
  by apply IH, set_default_keep.
Qed.

Lemma foldl_set_default_skip l : forall ns k,
  Forall (fun a => dest a ≠ k) l ->
  foldl set_default ns l !! k = ns !! k.
Proof.
  induction l as [|a l IH]; intros ns k Hl; simpl; [done|].
  inversion Hl as [|? ? Ha Hl']; subst. rewrite IH by done.
  unfold set_default. destruct (ns !! dest a); [done|].
  by rewrite lookup_insert_ne.
Qed.

(** The default of a destination is that of its first registration. *)
Lemma foldl_set_default_first pre a post ns :
  Forall (fun b => dest b ≠ dest a) pre ->
  ns !! dest a = None ->
  foldl set_default ns (pre ++ a :: post) !! dest a = Some (default a).
Proof.
  intros Hpre Hns. rewrite foldl_app. simpl.
  apply foldl_set_default_keep. unfold set_default.
  rewrite foldl_set_default_skip, Hns by done.
  apply lookup_insert_eq.
Qed.

Lemma store_options_str parserObj k argv : forall ns ns',
  store_options parserObj argv ns = Some ns' ->
  (exists s, ns !! k = Some (VStr s)) ->
  exists s, ns' !! k = Some (VStr s).
Proof.
  induction argv as [|[o s] argv IH]; intros ns ns' Hst Hk; simpl in Hst.
  - by injection Hst as <-.
  - destruct (find_option parserObj o) as [a|]; [|done].
    apply (IH _ _ Hst). destruct (decide (dest a = k)) as [->|Hne].
    + exists s. apply lookup_insert_eq.
    + by rewrite lookup_insert_ne.
Qed.

Lemma store_options_skip parserObj k argv : forall ns ns',
  sets_dest parserObj k argv = false ->
  store_options parserObj argv ns = Some ns' ->
  ns' !! k = ns !! k.
Proof.
  induction argv as [|[o s] argv IH]; intros ns ns' Hno Hst; simpl in Hst, Hno.
  - by injection Hst as <-.
  - apply orb_false_iff in Hno as [Ho Hno].
    destruct (find_option parserObj o) as [a|]; [|done].
    apply bool_decide_eq_false in Ho.
    rewrite (IH _ _ Hno Hst). by rewrite lookup_insert_ne.
Qed.

Lemma not_elem_config_fields k :
  k ∉ config_fields ->
  k ≠ "coverage_files" /\ k ≠ "report_type" /\ k ≠ "output_dir".
Proof.
  unfold config_fields. intros Hk.
  repeat split; intros ->; apply Hk; repeat constructor.
Qed.

Lemma elem_config_fields k :
  k ∈ config_fields ->
  k = "coverage_files" \/ k = "report_type" \/ k = "output_dir".
Proof.
  unfold config_fields. intros Hk.
  repeat (apply elem_of_cons in Hk as [->|Hk]; [tauto|]).
  by apply elem_of_nil in Hk.
Qed.

(** The defaults of the three options, whatever else is registered before
    (under other destinations) or after. *)
Lemma defaults_lookup inherited parserObj :
  Forall (fun a => dest a ∉ config_fields) parserObj ->
  let ns := foldl set_default ∅ (AddCommandLineOptions inherited parserObj) in
  ns !! "coverage_files" = Some (VStr "Build/**/coverage.xml") /\
  ns !! "report_type" = Some (VStr "Cobertura") /\
  ns !! "output_dir" = Some (VStr "Build/Coverage").
Proof.
  intros Hfresh ns. subst ns. rewrite AddCommandLineOptions_app.
  assert (forall k, k ∈ config_fields -> Forall (fun a => dest a ≠ k) parserObj) as Hpre.
  { intros k Hk. eapply Forall_impl; [exact Hfresh|].
    intros a Ha Heq. apply Ha. rewrite Heq. exact Hk. }
  pose proof (Hpre "coverage_files" ltac:(repeat constructor)) as H1.
  pose proof (Hpre "report_type" ltac:(repeat constructor)) as H2.
  pose proof (Hpre "output_dir" ltac:(repeat constructor)) as H3.
  unfold coverage_arguments.
  set (a1 := {| option_string := "--coverage-files" |}).
  set (a2 := {| option_string := "--report-type" |}).
  set (a3 := {| option_string := "--output-dir" |}).
  split; [|split].
  - change (parserObj ++ [a1; a2; a3] ++ inherited)
      with (parserObj ++ a1 :: ([a2; a3] ++ inherited)).
    apply (foldl_set_default_first parserObj a1); [done | apply lookup_empty].
  - change (parserObj ++ [a1; a2; a3] ++ inherited)
      with (parserObj ++ [a1] ++ a2 :: ([a3] ++ inherited)).
    rewrite (app_assoc parserObj [a1]).
    apply (foldl_set_default_first (parserObj ++ [a1]) a2); [|apply lookup_empty].
    apply Forall_app. split; [done|]. by repeat constructor.
  - change (parserObj ++ [a1; a2; a3] ++ inherited)
      with (parserObj ++ [a1; a2] ++ a3 :: inherited).
    rewrite (app_assoc parserObj [a1; a2]).
    apply (foldl_set_default_first (parserObj ++ [a1; a2]) a3); [|apply lookup_empty].
    apply Forall_app. split; [done|]. by repeat constructor.
Qed.

(** ** Retrieval *)

Lemma RetrieveCommandLineOptions_run inherited args self v1 v2 v3 :
  args !! "coverage_files" = Some v1 ->
  args !! "report_type" = Some v2 ->
  args !! "output_dir" = Some v3 ->
  RetrieveCommandLineOptions inherited args self
  = prepend (SetAttr "coverage_files" v1)
      (prepend (SetAttr "report_type" v2)
         (prepend (SetAttr "output_dir" v3)
            (inherited args (assigned v1 v2 v3 self)))).
Proof.
  intros H1 H2 H3. unfold RetrieveCommandLineOptions.
  rewrite (bind_ns_getattr_Some _ _ _ _ _ H1), bind_setattr.
  rewrite (bind_ns_getattr_Some _ _ _ _ _ H2), bind_setattr.
  rewrite (bind_ns_getattr_Some _ _ _ _ _ H3), bind_setattr.
  reflexivity.
Qed.

Lemma final_prepend {A} e (r : result A) : final (prepend e r) = final r.
Proof. reflexivity. Qed.

Lemma events_prepend {A} e (r : result A) : events (prepend e r) = e :: events r.
Proof. reflexivity. Qed.

Lemma writes_to_cons name e evs :
  writes_to name (e :: evs)
  = ((if is_write name e then 1 else 0) + writes_to name evs)%nat.
Proof. unfold writes_to. simpl. by destruct (is_write name e). Qed.

Lemma is_write_SetAttr name n v : is_write name (SetAttr n v) = bool_decide (n = name).
Proof. reflexivity. Qed.

Lemma assigned_lookup v1 v2 v3 self :
  dict (assigned v1 v2 v3 self) !! "coverage_files" = Some v1 /\
  dict (assigned v1 v2 v3 self) !! "report_type" = Some v2 /\
  dict (assigned v1 v2 v3 self) !! "output_dir" = Some v3.
Proof.
  unfold assigned. cbn [dict]. repeat split.
  - rewrite !lookup_insert_ne by done. apply lookup_insert_eq.
  - rewrite lookup_insert_ne by done. apply lookup_insert_eq.
  - apply lookup_insert_eq.
Qed.

(** The argument string of every process [Go] starts ends with the
    [-filefilters:] flag and the platform's filter expression. *)
Lemma Go_spawn_filefilters rcf self cmd args :
  In (Spawn cmd args) (events (Go rcf self)) ->
  exists front,
    args = front +:+ " -filefilters:" +:+ Go_file_filters (PlatformSettings self).
Proof.
  intros Hin.
  destruct (Go_spawn_inv _ _ _ _ Hin) as (cf & od & rt & _ & _ & _ & HGo).
  rewrite HGo in Hin. apply Go_invoked_spawn in Hin as [_ ->].
  exists (" -reports:" +:+ cf +:+ " -targetdir:" +:+ od +:+ " -reporttypes:" +:+ rt).
  unfold reportgenerator_args. by rewrite !append_assoc.
Qed.

(** * The claims *)

(** C1. The filter expression is every exclusion pattern prefixed with
    [-], then every inclusion pattern prefixed with [+], in list order,
    joined with [;]: it starts with its first token and ends with its last
    one, so no separator leads or trails.  This holds of the two loops for
    all lists, and so of the lists [Go] collects for any platform. *)
Theorem file_filters_is_join (excludes includes : list string) (ps : CoverageSettingsManager) :
  build_file_filters excludes includes
    = String.concat ";"
        (map (String.append "-") excludes ++ map (String.append "+") includes) /\
  (exists rest,
     build_file_filters excludes includes
     = hd "" (filter_tokens excludes includes) +:+ rest) /\
  (exists front,
     build_file_filters excludes includes
     = front +:+ List.last (filter_tokens excludes includes) "") /\
  Go_file_filters ps
    = String.concat ";"
        (map (String.append "-")
             (["*AutoGen.c"; "*UnitTest*"] ++ GetCoverageExclusionList ps)
         ++ map (String.append "+") (GetCoverageInclusionList ps)).
Proof.
  rewrite !build_file_filters_spec, Go_file_filters_spec.
  unfold filter_expression_spec. fold (filter_tokens excludes includes).
  split; [reflexivity|]. split; [apply concat_starts|].
  split; [apply concat_ends | reflexivity].
Qed.

(** C4. The exclusion list [Go] uses is the baseline [*AutoGen.c],
    [*UnitTest*] followed by the platform's exclusion list, and the
    inclusion list is the platform's inclusion list alone; the filter
    expression, and with it the [-filefilters:] flag of every process [Go]
    starts, is built from exactly these two lists. *)
Theorem collect_lists_baseline (ps : CoverageSettingsManager) :
  snd (collect_lists ps)
    = ["*AutoGen.c"; "*UnitTest*"] ++ GetCoverageExclusionList ps /\
  take 2 (snd (collect_lists ps)) = ["*AutoGen.c"; "*UnitTest*"] /\
  drop 2 (snd (collect_lists ps)) = GetCoverageExclusionList ps /\
  fst (collect_lists ps) = GetCoverageInclusionList ps /\
  Go_file_filters ps
    = build_file_filters
        (["*AutoGen.c"; "*UnitTest*"] ++ GetCoverageExclusionList ps)
        (GetCoverageInclusionList ps) /\
  (forall rcf self cmd args,
     PlatformSettings self = ps ->
     In (Spawn cmd args) (events (Go rcf self)) ->
     exists front,
       args = front +:+ " -filefilters:" +:+
              build_file_filters
                (["*AutoGen.c"; "*UnitTest*"] ++ GetCoverageExclusionList ps)
                (GetCoverageInclusionList ps)).
Proof.
  repeat (split; [reflexivity|]).
  intros rcf self cmd args <- Hin. by apply Go_spawn_filefilters in Hin.
Qed.

(** C6. A platform whose inclusion and exclusion lists are both empty
    gives the filter expression [-*AutoGen.c;-*UnitTest*]. *)
Theorem file_filters_empty_platform (ps : CoverageSettingsManager) :
  GetCoverageInclusionList ps = [] ->
  GetCoverageExclusionList ps = [] ->
  Go_file_filters ps = "-*AutoGen.c;-*UnitTest*".
Proof.
  intros Hinc Hexc. unfold Go_file_filters, collect_lists.
  rewrite Hinc, Hexc. reflexivity.
Qed.

(** C7. With inclusion list [Foo.c] and exclusion list [Bar.c] the filter
    expression is [-*AutoGen.c;-*UnitTest*;-Bar.c;+Foo.c]. *)
Theorem file_filters_Foo_Bar :
  Go_file_filters {| GetCoverageExclusionList := ["Bar.c"];
                     GetCoverageInclusionList := ["Foo.c"] |}
  = "-*AutoGen.c;-*UnitTest*;-Bar.c;+Foo.c".
Proof. reflexivity. Qed.

(** C2. When the external tool is started, [Go] returns its exit code: 0
    when the code is 0 and exactly N when it is N, not 0.  Whenever [Go]
    returns at all, the value is that exit code, or it is -1 and the
    coverage-file glob is [None]. *)
Theorem Go_return_value (rcf : string -> string -> Z) (self : Edk2Coverage) :
  (forall args,
     In (Spawn "reportgenerator" args) (events (Go rcf self)) ->
     outcome (Go rcf self) = inr (rcf "reportgenerator" args)) /\
  (forall cf od rt,
     dict self !! "coverage_files" = Some (VStr cf) ->
     dict self !! "output_dir" = Some (VStr od) ->
     dict self !! "report_type" = Some (VStr rt) ->
     exists args,
       In (Spawn "reportgenerator" args) (events (Go rcf self)) /\
       outcome (Go rcf self) = inr (rcf "reportgenerator" args)) /\
  (forall v,
     outcome (Go rcf self) = inr v ->
     (dict self !! "coverage_files" = Some VNone /\ v = -1) \/
     (exists args,
        In (Spawn "reportgenerator" args) (events (Go rcf self)) /\
        v = rcf "reportgenerator" args)).
Proof.
  split; [|split].
  - intros args Hin.
    destruct (Go_spawn_inv _ _ _ _ Hin) as (cf & od & rt & _ & _ & _ & HGo).
    rewrite HGo in Hin |- *. apply Go_invoked_spawn in Hin as [_ ->]. reflexivity.
  - intros cf od rt Hcf Hod Hrt. rewrite (Go_configured _ _ _ _ _ Hcf Hod Hrt).
    eexists. split; [by left | reflexivity].
  - intros v. rewrite Go_unfold.
    destruct (dict self !! "coverage_files") as [[|cf|l]|]; try done.
    { intros [= <-]. by left. }
    destruct (dict self !! "output_dir") as [[|od|l]|]; try done.
    destruct (dict self !! "report_type") as [[|rt|l]|]; try done.
    intros [= <-]. right. eexists. split; [by left | reflexivity].
Qed.

(** C3. When the coverage-file glob is [None], [Go] logs one error and
    returns -1; it starts no process and leaves the instance as it was. *)
Theorem Go_missing_coverage_files (rcf : string -> string -> Z) (self : Edk2Coverage) :
  dict self !! "coverage_files" = Some VNone ->
  outcome (Go rcf self) = inr (-1) /\
  events (Go rcf self) = [Log ERROR ("Path to coverage file is required!" +:+ LF)] /\
  List.filter is_spawn (events (Go rcf self)) = [] /\
  final (Go rcf self) = self.
Proof. intros Hcf. rewrite Go_unfold, Hcf. by repeat split. Qed.

(** C5. In every run of [Go] that starts a process, the process is
    [reportgenerator], it is the only one, and its argument string is
    [ -reports:] with the coverage files, [ -targetdir:] with the output
    directory, [ -reporttypes:] with the report type and [ -filefilters:]
    with the filter expression, concatenated in this order. *)
Theorem Go_spawn_arguments (rcf : string -> string -> Z) (self : Edk2Coverage)
    (cmd args : string) :
  In (Spawn cmd args) (events (Go rcf self)) ->
  cmd = "reportgenerator" /\
  List.filter is_spawn (events (Go rcf self)) = [Spawn cmd args] /\
  exists coverage_files output_dir report_type,
    dict self !! "coverage_files" = Some (VStr coverage_files) /\
    dict self !! "output_dir" = Some (VStr output_dir) /\
    dict self !! "report_type" = Some (VStr report_type) /\
    args = " -reports:" +:+ coverage_files
           +:+ " -targetdir:" +:+ output_dir
           +:+ " -reporttypes:" +:+ report_type
           +:+ " -filefilters:" +:+ Go_file_filters (PlatformSettings self).
Proof.
  intros Hin.
  destruct (Go_spawn_inv _ _ _ _ Hin) as (cf & od & rt & Hcf & Hod & Hrt & HGo).
  rewrite HGo in Hin |- *. apply Go_invoked_spawn in Hin as [-> ->].
  split; [reflexivity|]. split.
  - unfold Go_invoked. cbn [events List.filter is_spawn].
    by rewrite is_spawn_exit_log.
  - by exists cf, od, rt.
Qed.

(** C9. For every platform the filter expression is not empty: it is the
    two baseline tokens [-*AutoGen.c;-*UnitTest*], followed by nothing or
    by a separator and further tokens.  So the [-filefilters:] flag of
    every process [Go] starts carries a non-empty value. *)
Theorem file_filters_nonempty (ps : CoverageSettingsManager) :
  Go_file_filters ps ≠ "" /\
  (exists rest,
     Go_file_filters ps = "-*AutoGen.c;-*UnitTest*" +:+ rest /\
     (rest = "" \/ exists rest', rest = ";" +:+ rest')) /\
  (forall rcf self cmd args,
     PlatformSettings self = ps ->
     In (Spawn cmd args) (events (Go rcf self)) ->
     exists front, args = front +:+ " -filefilters:" +:+ Go_file_filters ps).
Proof.
  assert (exists rest,
     Go_file_filters ps = "-*AutoGen.c;-*UnitTest*" +:+ rest /\
     (rest = "" \/ exists rest', rest = ";" +:+ rest')) as Hpre.
  { rewrite Go_file_filters_spec. unfold filter_expression_spec, filter_tokens.
    apply baseline_prefix. }
  split; [|split; [exact Hpre|]].
  - destruct Hpre as (rest & -> & _). done.
  - intros rcf self cmd args <- Hin. by apply Go_spawn_filefilters in Hin.
Qed.

(** C8. A retrieval assigns each of [coverage_files], [report_type] and
    [output_dir] exactly once, with the value of the namespace, provided
    the inherited retrieval assigns none of them; and [Go] assigns no
    attribute and returns the instance as it received it, whatever the
    attributes hold and whatever the external tool answers. *)
Theorem config_fields_written_once (rcf : string -> string -> Z)
    (inherited : gmap string value -> M unit) (args : gmap string value)
    (self0 self : Edk2Coverage) (name : string) :
  (forall a s m, m ∈ config_fields -> writes_to m (events (inherited a s)) = 0%nat) ->
  (forall m, m ∈ config_fields -> is_Some (args !! m)) ->
  name ∈ config_fields ->
  writes_to name (events (RetrieveCommandLineOptions inherited args self0)) = 1%nat /\
  (exists v, args !! name = Some v /\
     In (SetAttr name v) (events (RetrieveCommandLineOptions inherited args self0))) /\
  final (Go rcf self) = self /\
  dict (final (Go rcf self)) !! name = dict self !! name /\
  writes_to name (events (Go rcf self)) = 0%nat.
Proof.
  intros Hinh Hargs Hname.
  destruct (Hargs "coverage_files" ltac:(repeat constructor)) as [v1 H1].
  destruct (Hargs "report_type" ltac:(repeat constructor)) as [v2 H2].
  destruct (Hargs "output_dir" ltac:(repeat constructor)) as [v3 H3].
  rewrite (RetrieveCommandLineOptions_run _ _ _ _ _ _ H1 H2 H3).
  rewrite !events_prepend, !writes_to_cons, !is_write_SetAttr.
  rewrite (Hinh _ _ _ Hname).
  destruct (Go_frame rcf self) as [Hfinal Hwrites].
  rewrite Hfinal, Hwrites.
  split; [|split; [|done]].
  - apply elem_config_fields in Hname as [-> | [-> | ->]];
      repeat (first [rewrite bool_decide_eq_true_2 by done
                    | rewrite bool_decide_eq_false_2 by done]); reflexivity.
  - apply elem_config_fields in Hname as [-> | [-> | ->]];
      eexists; (split; [eassumption|]); cbn [In]; tauto.
Qed.

(** C10. Parse any command line with the parser this class registers its
    options on, retrieve the options, and run [Go]: [coverage_files] is a
    string, the default [Build/**/coverage.xml] when no option of the
    command line is stored in it, never [None]; so [Go] logs no error,
    starts the external tool and returns its exit code.  The parser handed
    in must not already use the three destinations, and the inherited
    retrieval must leave the three attributes as they are. *)
Theorem coverage_files_never_None (rcf : string -> string -> Z)
    (inherited_arguments : list argument)
    (inherited : gmap string value -> M unit)
    (parserObj : list argument) (argv : list (string * string))
    (args : gmap string value) (self : Edk2Coverage) :
  Forall (fun a => dest a ∉ config_fields) parserObj ->
  (forall a s m, m ∈ config_fields ->
     dict (final (inherited a s)) !! m = dict s !! m) ->
  parse_args (AddCommandLineOptions inherited_arguments parserObj) argv = Some args ->
  let self' := final (RetrieveCommandLineOptions inherited args self) in
  (exists s,
     dict self' !! "coverage_files" = Some (VStr s) /\
     s = if sets_dest (AddCommandLineOptions inherited_arguments parserObj)
              "coverage_files" argv
         then s else "Build/**/coverage.xml") /\
  dict self' !! "coverage_files" ≠ Some VNone /\
  List.filter is_error_log (events (Go rcf self')) = [] /\
  (exists cmdline,
     In (Spawn "reportgenerator" cmdline) (events (Go rcf self')) /\
     outcome (Go rcf self') = inr (rcf "reportgenerator" cmdline)).
Proof.
  intros Hfresh Hinh Hparse self'.
  destruct (defaults_lookup inherited_arguments parserObj Hfresh) as (D1 & D2 & D3).
  unfold parse_args in Hparse.
  destruct (store_options_str _ "coverage_files" _ _ _ Hparse (ex_intro _ _ D1))
    as [s1 H1].
  destruct (store_options_str _ "report_type" _ _ _ Hparse (ex_intro _ _ D2))
    as [s2 H2].
  destruct (store_options_str _ "output_dir" _ _ _ Hparse (ex_intro _ _ D3))
    as [s3 H3].
  assert (dict self' !! "coverage_files" = Some (VStr s1) /\
          dict self' !! "report_type" = Some (VStr s2) /\
          dict self' !! "output_dir" = Some (VStr s3)) as (F1 & F2 & F3).
  { subst self'. rewrite (RetrieveCommandLineOptions_run _ _ _ _ _ _ H1 H2 H3).
    rewrite !final_prepend.
    destruct (assigned_lookup (VStr s1) (VStr s2) (VStr s3) self) as (A1 & A2 & A3).
    rewrite !Hinh by repeat constructor. done. }
  split; [|split; [|split]].
  - exists s1. split; [exact F1|].
    destruct (sets_dest _ _ argv) eqn:Hsets; [reflexivity|].
    pose proof (store_options_skip _ _ _ _ _ Hsets Hparse) as Hskip.
    rewrite H1, D1 in Hskip. by injection Hskip.
  - rewrite F1. done.
  - rewrite (Go_configured _ _ _ _ _ F1 F3 F2). unfold Go_invoked.
    cbn [events List.filter is_error_log]. by rewrite is_error_log_exit_log.
  - rewrite (Go_configured _ _ _ _ _ F1 F3 F2). unfold Go_invoked.
    cbn [events outcome]. eexists. split; [by left | reflexivity].
Qed.

(** * The claims on concrete runs *)

Lemma Go_missing_coverage_files_witness :
  outcome (Go tool_ok unset_instance) = inr (-1) /\
  events (Go tool_ok unset_instance)
    = [Log ERROR ("Path to coverage file is required!" +:+ LF)] /\
  List.filter is_spawn (events (Go tool_ok unset_instance)) = [] /\
  final (Go tool_ok unset_instance) = unset_instance.
Proof.
  apply (Go_missing_coverage_files tool_ok unset_instance).
  vm_compute. reflexivity.
Defined.

Lemma Go_spawn_arguments_witness :
  "reportgenerator" = "reportgenerator" /\
  List.filter is_spawn (events (Go tool_fails (default_instance FooBar_platform)))
    = [Spawn "reportgenerator"
         " -reports:Build/**/coverage.xml -targetdir:Build/Coverage -reporttypes:Cobertura -filefilters:-*AutoGen.c;-*UnitTest*;-Bar.c;+Foo.c"] /\
  exists coverage_files output_dir report_type,
    dict (default_instance FooBar_platform) !! "coverage_files"
      = Some (VStr coverage_files) /\
    dict (default_instance FooBar_platform) !! "output_dir" = Some (VStr output_dir) /\
    dict (default_instance FooBar_platform) !! "report_type" = Some (VStr report_type) /\
    " -reports:Build/**/coverage.xml -targetdir:Build/Coverage -reporttypes:Cobertura -filefilters:-*AutoGen.c;-*UnitTest*;-Bar.c;+Foo.c"
    = " -reports:" +:+ coverage_files
      +:+ " -targetdir:" +:+ output_dir
      +:+ " -reporttypes:" +:+ report_type
      +:+ " -filefilters:"
      +:+ Go_file_filters (PlatformSettings (default_instance FooBar_platform)).
Proof.
  apply (Go_spawn_arguments tool_fails (default_instance FooBar_platform)).
  vm_compute. left. reflexivity.
Defined.

Lemma file_filters_empty_platform_witness :
  Go_file_filters CoverageSettingsManager_base = "-*AutoGen.c;-*UnitTest*".
Proof.
  apply (file_filters_empty_platform CoverageSettingsManager_base); reflexivity.
Defined.

Lemma config_fields_written_once_witness :
  writes_to "coverage_files"
    (events (RetrieveCommandLineOptions sample_inherited_Retrieve Html_namespace
               fresh_instance)) = 1%nat /\
  (exists v, Html_namespace !! "coverage_files" = Some v /\
     In (SetAttr "coverage_files" v)
        (events (RetrieveCommandLineOptions sample_inherited_Retrieve Html_namespace
                   fresh_instance))) /\
  final (Go tool_fails (default_instance FooBar_platform))
    = default_instance FooBar_platform /\
  dict (final (Go tool_fails (default_instance FooBar_platform))) !! "coverage_files"
    = dict (default_instance FooBar_platform) !! "coverage_files" /\
  writes_to "coverage_files" (events (Go tool_fails (default_instance FooBar_platform)))
    = 0%nat.
Proof.
  apply (config_fields_written_once tool_fails sample_inherited_Retrieve
           Html_namespace fresh_instance (default_instance FooBar_platform)
           "coverage_files").
  - intros a s m Hm. unfold sample_inherited_Retrieve, ns_getattr.
    destruct (a !! "packageList") as [v|]; [|reflexivity].
    rewrite bind_ret. unfold setattr. cbn [events].
    rewrite writes_to_cons, is_write_SetAttr.
    apply elem_config_fields in Hm as [-> | [-> | ->]]; reflexivity.
  - intros m Hm.
    apply elem_config_fields in Hm as [-> | [-> | ->]];
      vm_compute; eexists; reflexivity.
  - repeat constructor.
Defined.

Lemma coverage_files_never_None_witness :
  let self' :=
    final (RetrieveCommandLineOptions sample_inherited_Retrieve Html_namespace
             fresh_instance) in
  (exists s,
     dict self' !! "coverage_files" = Some (VStr s) /\
     s = if sets_dest (AddCommandLineOptions sample_inherited_arguments [])
              "coverage_files" [("--report-type", "Html")]
         then s else "Build/**/coverage.xml") /\
  dict self' !! "coverage_files" ≠ Some VNone /\
  List.filter is_error_log (events (Go tool_ok self')) = [] /\
  (exists cmdline,
     In (Spawn "reportgenerator" cmdline) (events (Go tool_ok self')) /\
     outcome (Go tool_ok self') = inr (tool_ok "reportgenerator" cmdline)).
Proof.
  apply (coverage_files_never_None tool_ok sample_inherited_arguments
           sample_inherited_Retrieve [] [("--report-type", "Html")]
           Html_namespace fresh_instance).
  - constructor.
  - intros a s m Hm. unfold sample_inherited_Retrieve, ns_getattr.
    destruct (a !! "packageList") as [v|]; [|reflexivity].
    rewrite bind_ret. unfold setattr. cbn [final dict].
    apply elem_config_fields in Hm as [-> | [-> | ->]];
      by rewrite lookup_insert_ne.
  - vm_compute. reflexivity.
Defined.

(** ** Further runs *)

Example Go_runs_with_defaults :
  Go tool_ok (default_instance CoverageSettingsManager_base)
  = {| outcome := inr 0;
       final := default_instance CoverageSettingsManager_base;
       events := [Spawn "reportgenerator"
                    " -reports:Build/**/coverage.xml -targetdir:Build/Coverage -reporttypes:Cobertura -filefilters:-*AutoGen.c;-*UnitTest*";
                  Log DEBUG "reportgenerator command returned successfully!"] |}.
Proof. vm_compute. reflexivity. Qed.

Example Go_propagates_failure :
  Go tool_fails (default_instance FooBar_platform)
  = {| outcome := inr 3;
       final := default_instance FooBar_platform;
       events := [Spawn "reportgenerator"
                    " -reports:Build/**/coverage.xml -targetdir:Build/Coverage -reporttypes:Cobertura -filefilters:-*AutoGen.c;-*UnitTest*;-Bar.c;+Foo.c";
                  Log CRITICAL "reportgenerator returned error return value: 3"] |}.
Proof. vm_compute. reflexivity. Qed.

Example Go_before_retrieval :
  outcome (Go tool_ok fresh_instance) = inl (AttributeError "coverage_files").
Proof. vm_compute. reflexivity. Qed.

Example Go_output_dir_None :
  Go tool_ok (configured (VStr "c.xml") (VStr "Html") VNone CoverageSettingsManager_base)
  = {| outcome := inl TypeError;
       final := configured (VStr "c.xml") (VStr "Html") VNone CoverageSettingsManager_base;
       events := [] |}.
Proof. vm_compute. reflexivity. Qed.

Example parse_Html :
  parse_args (AddCommandLineOptions sample_inherited_arguments [])
             [("--report-type", "Html")]
  = Some Html_namespace.
Proof. vm_compute. reflexivity. Qed.

Example parse_unknown_option :
  parse_args (AddCommandLineOptions sample_inherited_arguments [])
             [("--no-such-option", "x")]
  = None.
Proof. vm_compute. reflexivity. Qed.

Example retrieve_then_Go :
  events (Go tool_ok
            (final (RetrieveCommandLineOptions sample_inherited_Retrieve Html_namespace
                      fresh_instance)))
  = [Spawn "reportgenerator"
       " -reports:Build/**/coverage.xml -targetdir:Build/Coverage -reporttypes:Html -filefilters:-*AutoGen.c;-*UnitTest*";
     Log DEBUG "reportgenerator command returned successfully!"].
Proof. vm_compute. reflexivity. Qed.

Example empty_pattern_keeps_separator :
  build_file_filters [""; "a"] [""] = "-;-a;+".
Proof. reflexivity. Qed.

(** * Further properties of the module *)

(** ** Runs of Go that raise, and what Go logs *)


(** X2. Only [coverage_files] is tested for [None]: with a string there
    and [None] as output directory, or [None] as report type behind a
    string output directory, [Go] raises [TypeError] before it starts the
    tool. *)
Theorem Go_None_unguarded (rcf : string -> string -> Z) (self : Edk2Coverage)
    (cf : string) :
  dict self !! "coverage_files" = Some (VStr cf) ->
  dict self !! "output_dir" = Some VNone \/
  ((exists od, dict self !! "output_dir" = Some (VStr od)) /\
   dict self !! "report_type" = Some VNone) ->
  outcome (Go rcf self) = inl TypeError /\
  List.filter is_spawn (events (Go rcf self)) = [] /\
  List.filter is_log (events (Go rcf self)) = [].
Proof.
  intros Hcf [Hod | [[od Hod] Hrt]]; rewrite Go_unfold, Hcf, Hod; [done|].
  by rewrite Hrt.
Qed.


(** ** The filter expression: growth, length, ambiguity *)

Lemma add_filter_nonempty sign acc p :
  acc ≠ "" -> add_filter sign acc p = acc +:+ ";" +:+ sign +:+ p.
Proof.
  intros Hacc. unfold add_filter. rewrite decide_True by done.
  by rewrite append_assoc.
Qed.

Lemma foldl_add_filter_nonempty sign l : forall acc,
  acc ≠ "" -> foldl (add_filter sign) acc l ≠ "".
Proof.
  induction l as [|p l IH]; intros acc Hacc; simpl; [done|].
  apply IH. rewrite add_filter_nonempty by done. by apply append_nonempty_l.
Qed.

Lemma exclusions_not_empty ps :
  foldl (add_filter "-") "" (["*AutoGen.c"; "*UnitTest*"] ++ GetCoverageExclusionList ps)
  ≠ "".
Proof. cbn [app foldl]. by apply foldl_add_filter_nonempty. Qed.

Lemma Go_file_filters_not_empty ps : Go_file_filters ps ≠ "".
Proof.
  unfold Go_file_filters, collect_lists, build_file_filters.
  apply foldl_add_filter_nonempty, exclusions_not_empty.
Qed.

Lemma Go_file_filters_add_inclusion ps p :
  Go_file_filters (add_inclusion ps p) = Go_file_filters ps +:+ ";+" +:+ p.
Proof.
  assert (Go_file_filters ps ≠ "") as Hne by apply Go_file_filters_not_empty.
  unfold Go_file_filters, collect_lists, add_inclusion, build_file_filters in *.
  cbn [GetCoverageExclusionList GetCoverageInclusionList app] in *.
  rewrite foldl_snoc. by rewrite add_filter_nonempty.
Qed.

Lemma Go_file_filters_add_exclusion ps p :
  GetCoverageInclusionList ps = [] ->
  Go_file_filters (add_exclusion ps p) = Go_file_filters ps +:+ ";-" +:+ p.
Proof.
  intros Hinc.
  assert (Go_file_filters ps ≠ "") as Hne by apply Go_file_filters_not_empty.
  unfold Go_file_filters, collect_lists, add_exclusion, build_file_filters in *.
  cbn [GetCoverageExclusionList GetCoverageInclusionList] in *.
  rewrite Hinc in *. cbn [app foldl] in *.
  rewrite foldl_snoc. by rewrite add_filter_nonempty.
Qed.

(** X4. One more inclusion pattern at the end of the platform's list adds
    [;+pattern] at the end of the filter expression; one more exclusion
    pattern adds [;-pattern] at the end when the platform includes
    nothing. *)
Theorem file_filters_grow (ps : CoverageSettingsManager) (p : string) :
  GetCoverageInclusionList ps = [] ->
  Go_file_filters (add_exclusion ps p) = Go_file_filters ps +:+ ";-" +:+ p /\
  Go_file_filters (add_inclusion ps p) = Go_file_filters ps +:+ ";+" +:+ p /\
  forall ps' : CoverageSettingsManager,
    Go_file_filters (add_inclusion ps' p) = Go_file_filters ps' +:+ ";+" +:+ p.
Proof.
  intros Hinc. split; [by apply Go_file_filters_add_exclusion|].
  split; [|intros ps']; apply Go_file_filters_add_inclusion.
Qed.

(** X7. Patterns are copied as they are: an exclusion pattern that holds
    [;+] gives the same filter expression as an exclusion and an inclusion
    pattern. *)
Theorem file_filters_no_escaping (ps : CoverageSettingsManager) (a b : string) :
  GetCoverageInclusionList ps = [] ->
  Go_file_filters (add_exclusion ps (a +:+ ";+" +:+ b))
  = Go_file_filters (add_inclusion (add_exclusion ps a) b).
Proof.
  intros Hinc.
  rewrite Go_file_filters_add_inclusion, !Go_file_filters_add_exclusion by done.
  by rewrite !append_assoc.
Qed.

Lemma length_append s t : String.length (s +:+ t) = (String.length s + String.length t)%nat.
Proof.
  induction s as [|c s IH]; [done|].
  rewrite append_String. cbn [String.length Nat.add]. by rewrite IH.
Qed.

Lemma length_concat_cons t toks :
  String.length (String.concat ";" (t :: toks))
  = (String.length t + foldr (fun u n => 1 + String.length u + n) 0 toks)%nat.
Proof.
  revert t. induction toks as [|u toks IH]; intros t.
  - cbn [String.concat foldr]. lia.
  - rewrite concat_cons_cons, !length_append, IH. cbn [foldr String.length]. lia.
Qed.

Lemma length_signed_tokens sign l :
  String.length sign = 1%nat ->
  foldr (fun u n => 1 + String.length u + n)%nat 0%nat (map (String.append sign) l)
  = tokens_length l.
Proof.
  intros Hsign. induction l as [|p l IH]; [done|].
  cbn [map foldr tokens_length]. rewrite length_append, Hsign, IH.
  unfold tokens_length. lia.
Qed.

Lemma foldr_length_app (l k : list string) :
  foldr (fun u n => 1 + String.length u + n)%nat 0%nat (l ++ k)
  = (foldr (fun u n => 1 + String.length u + n)%nat 0%nat l
     + foldr (fun u n => 1 + String.length u + n)%nat 0%nat k)%nat.
Proof. induction l as [|u l IH]; [done|]. cbn [app foldr]. rewrite IH. lia. Qed.

Lemma length_build_file_filters excludes includes :
  excludes ++ includes ≠ [] ->
  S (String.length (build_file_filters excludes includes))
  = (tokens_length excludes + tokens_length includes)%nat.
Proof.
  intros Hne. rewrite build_file_filters_spec.
  unfold filter_expression_spec, filter_tokens.
  pose proof (foldr_length_app (map (String.append "-") excludes)
                               (map (String.append "+") includes)) as Happ.
  rewrite !length_signed_tokens in Happ by done.
  destruct (map (String.append "-") excludes ++ map (String.append "+") includes)
    as [|t toks] eqn:Htoks.
  - apply app_eq_nil in Htoks as [H1 H2].
    apply map_eq_nil in H1, H2. subst. done.
  - rewrite length_concat_cons. cbn [foldr] in Happ. lia.
Qed.

(** X5. The filter expression holds every pattern once with one sign, and
    one separator between two tokens and nowhere else: its length is the
    sum of the pattern lengths, plus two for each pattern, minus one.  For
    [Go] that is 23 characters of baseline and two more than its length
    for every platform pattern. *)
Theorem file_filters_length (excludes includes : list string)
    (ps : CoverageSettingsManager) :
  excludes ++ includes ≠ [] ->
  S (String.length (build_file_filters excludes includes))
    = (tokens_length excludes + tokens_length includes)%nat /\
  String.length (Go_file_filters ps)
    = (23 + tokens_length (GetCoverageExclusionList ps)
          + tokens_length (GetCoverageInclusionList ps))%nat.
Proof.
  intros Hne. split; [by apply length_build_file_filters|].
  unfold Go_file_filters, collect_lists.
  pose proof (length_build_file_filters
                (["*AutoGen.c"; "*UnitTest*"] ++ GetCoverageExclusionList ps)
                ([] ++ GetCoverageInclusionList ps) ltac:(done)) as Hlen.
  unfold tokens_length in *. cbn [app foldr String.length] in Hlen.
  cbn [app]. lia.
Qed.

(** A string that is empty or starts with the separator. *)
Lemma token_split t : forall t' r r',
  has_semicolon t = false -> has_semicolon t' = false ->
  (r = "" \/ exists r0, r = String ";" r0) ->
  (r' = "" \/ exists r0, r' = String ";" r0) ->
  t +:+ r = t' +:+ r' ->
  t = t' /\ r = r'.
Proof.
  induction t as [|c t IH]; intros [|c' t'] r r' Ht Ht' Hr Hr' Heq.
  - done.
  - rewrite append_empty_l, append_String in Heq. subst r.
    destruct Hr as [Hr | [r0 Hr]]; [done|].
    injection Hr as -> _. cbn in Ht'. done.
  - rewrite append_empty_l, append_String in Heq. subst r'.
    destruct Hr' as [Hr' | [r0 Hr']]; [done|].
    injection Hr' as -> _. cbn in Ht. done.
  - rewrite !append_String in Heq. injection Heq as -> Heq.
    cbn [has_semicolon] in Ht, Ht'.
    destruct (Ascii.eqb c' ";"); [done|].
    destruct (IH t' r r' Ht Ht' Hr Hr' Heq) as [-> ->]. done.
Qed.

Lemma concat_head_tail t toks :
  exists r, String.concat ";" (t :: toks) = t +:+ r /\
            (r = "" \/ exists r0, r = String ";" r0) /\
            r = match toks with
                | [] => ""
                | _ :: _ => String ";" (String.concat ";" toks)
                end.
Proof.
  destruct toks as [|u toks].
  - exists "". cbn [String.concat]. rewrite append_empty_r. by repeat split; [left].
  - eexists. rewrite concat_cons_cons. split; [reflexivity|].
    split; [right; by eexists | reflexivity].
Qed.

Lemma concat_inj toks : forall toks',
  Forall (fun t => t ≠ "" /\ has_semicolon t = false) toks ->
  Forall (fun t => t ≠ "" /\ has_semicolon t = false) toks' ->
  String.concat ";" toks = String.concat ";" toks' ->
  toks = toks'.
Proof.
  induction toks as [|t toks IH]; intros [|t' toks'] Htoks Htoks' Heq.
  - done.
  - inversion Htoks' as [|? ? [Hne _] _]; subst.
    destruct (concat_head_tail t' toks') as (r & Hr & _). rewrite Hr in Heq.
    cbn [String.concat] in Heq. symmetry in Heq.
    by apply append_nonempty_l with (t := r) in Hne.
  - inversion Htoks as [|? ? [Hne _] _]; subst.
    destruct (concat_head_tail t toks) as (r & Hr & _). rewrite Hr in Heq.
    cbn [String.concat] in Heq.
    by apply append_nonempty_l with (t := r) in Hne.
  - inversion Htoks as [|? ? [_ Ht] Htl]; subst.
    inversion Htoks' as [|? ? [_ Ht'] Htl']; subst.
    destruct (concat_head_tail t toks) as (r & Hr & Hsep & Hrdef).
    destruct (concat_head_tail t' toks') as (r' & Hr' & Hsep' & Hrdef').
    rewrite Hr, Hr' in Heq.
    destruct (token_split _ _ _ _ Ht Ht' Hsep Hsep' Heq) as [-> Hrr].
    f_equal. subst r r'.
    destruct toks as [|u toks], toks' as [|u' toks']; try done.
    injection Hrr as Hrr. by apply IH.
Qed.

Lemma signed_token sign p :
  String.length sign = 1%nat -> has_semicolon sign = false ->
  sign +:+ p ≠ "" /\ has_semicolon (sign +:+ p) = has_semicolon p.
Proof.
  destruct sign as [|c [|c' sign]]; try done. intros _ Hc.
  rewrite append_String, append_empty_l. split; [done|].
  cbn [has_semicolon] in *. by destruct (Ascii.eqb c ";").
Qed.

Lemma filter_tokens_clean excludes includes :
  Forall (fun p => has_semicolon p = false) (excludes ++ includes) ->
  Forall (fun t => t ≠ "" /\ has_semicolon t = false) (filter_tokens excludes includes).
Proof.
  intros [Hex Hinc]%Forall_app. unfold filter_tokens.
  apply Forall_app. split; apply Forall_forall;
    intros t [p [<- Hp]]%list_elem_of_In%in_map_iff;
    apply list_elem_of_In in Hp.
  - destruct (signed_token "-" p) as [Hne Hsemi]; [done..|].
    split; [done|]. rewrite Hsemi. by eapply Forall_forall in Hex.
  - destruct (signed_token "+" p) as [Hne Hsemi]; [done..|].
    split; [done|]. rewrite Hsemi. by eapply Forall_forall in Hinc.
Qed.

Lemma plus_tokens_inj includes : forall includes',
  map (String.append "+") includes = map (String.append "+") includes' ->
  includes = includes'.
Proof.
  induction includes as [|p l IH]; intros [|p' l'] Heq; try done.
  cbn [map] in Heq.
  pose proof (f_equal (hd "") Heq) as Hp. pose proof (f_equal (@tl _) Heq) as Hl.
  cbn [hd tl] in Hp, Hl.
  apply (inj (String.append "+")) in Hp as ->. f_equal. by apply IH.
Qed.

Lemma filter_tokens_inj excludes : forall excludes' includes includes',
  filter_tokens excludes includes = filter_tokens excludes' includes' ->
  excludes = excludes' /\ includes = includes'.
Proof.
  unfold filter_tokens.
  induction excludes as [|e ex IH]; intros [|e' ex'] inc inc' Heq; cbn [map app] in Heq.
  - split; [done|]. by apply plus_tokens_inj.
  - destruct inc as [|i inc]; [done|]. cbn [map] in Heq.
    pose proof (f_equal (hd "") Heq) as Hp. cbn [hd] in Hp.
    rewrite !append_String in Hp. by injection Hp.
  - destruct inc' as [|i inc']; [done|]. cbn [map] in Heq.
    pose proof (f_equal (hd "") Heq) as Hp. cbn [hd] in Hp.
    rewrite !append_String in Hp. by injection Hp.
  - pose proof (f_equal (hd "") Heq) as He. pose proof (f_equal (@tl _) Heq) as Hl.
    cbn [hd tl] in He, Hl.
    apply (inj (String.append "-")) in He as ->.
    destruct (IH _ _ _ Hl) as [-> ->]. done.
Qed.

Lemma build_file_filters_inj excludes includes excludes' includes' :
  Forall (fun p => has_semicolon p = false) (excludes ++ includes) ->
  Forall (fun p => has_semicolon p = false) (excludes' ++ includes') ->
  build_file_filters excludes includes = build_file_filters excludes' includes' ->
  excludes = excludes' /\ includes = includes'.
Proof.
  intros Hclean Hclean'. rewrite !build_file_filters_spec.
  unfold filter_expression_spec. intros Heq.
  apply filter_tokens_inj, concat_inj; [by apply filter_tokens_clean..|done].
Qed.

(** X6. When no pattern holds a [;], the filter expression tells the two
    lists apart: the loops give the same expression only for the same
    exclusions and the same inclusions, and so does [Go] for two
    platforms. *)
Theorem file_filters_unambiguous (ps ps' : CoverageSettingsManager) :
  Forall (fun p => has_semicolon p = false)
         (GetCoverageExclusionList ps ++ GetCoverageInclusionList ps) ->
  Forall (fun p => has_semicolon p = false)
         (GetCoverageExclusionList ps' ++ GetCoverageInclusionList ps') ->
  (build_file_filters (GetCoverageExclusionList ps) (GetCoverageInclusionList ps)
   = build_file_filters (GetCoverageExclusionList ps') (GetCoverageInclusionList ps')
   -> ps = ps') /\
  (Go_file_filters ps = Go_file_filters ps' -> ps = ps').
Proof.
  intros Hclean Hclean'. split; intros Heq.
  - destruct (build_file_filters_inj _ _ _ _ Hclean Hclean' Heq) as [Hex Hinc].
    destruct ps, ps'. cbn in *. by subst.
  - unfold Go_file_filters, collect_lists in Heq. cbn [app] in Heq.
    apply build_file_filters_inj in Heq as [Hex Hinc].
    + injection Hex as Hex. destruct ps, ps'. cbn in *. by subst.
    + cbn [app]. by repeat (constructor; [done|]).
    + cbn [app]. by repeat (constructor; [done|]).
Qed.

(** ** Retrieval *)



(** X9. A retrieval from a namespace that has the three attributes hands
    the inherited retrieval an instance in which exactly these three are
    overwritten with the namespace's values; every other attribute and
    the platform settings are as before, and the outcome is the inherited
    one's. *)
Theorem Retrieve_frame (inherited : gmap string value -> M unit)
    (args : gmap string value) (self : Edk2Coverage) :
  (forall m, m ∈ config_fields -> is_Some (args !! m)) ->
  exists self1,
    (forall name, name ∈ config_fields -> dict self1 !! name = args !! name) /\
    (forall name, name ∉ config_fields -> dict self1 !! name = dict self !! name) /\
    PlatformSettings self1 = PlatformSettings self /\
    final (RetrieveCommandLineOptions inherited args self)
      = final (inherited args self1) /\
    outcome (RetrieveCommandLineOptions inherited args self)
      = outcome (inherited args self1).
Proof.
  intros Hargs.
  destruct (Hargs "coverage_files" ltac:(repeat constructor)) as [v1 H1].
  destruct (Hargs "report_type" ltac:(repeat constructor)) as [v2 H2].
  destruct (Hargs "output_dir" ltac:(repeat constructor)) as [v3 H3].
  exists (assigned v1 v2 v3 self).
  rewrite (RetrieveCommandLineOptions_run _ _ _ _ _ _ H1 H2 H3).
  destruct (assigned_lookup v1 v2 v3 self) as (A1 & A2 & A3).
  split; [|split; [|by repeat split]].
  - intros name [-> | [-> | ->]]%elem_config_fields; congruence.
  - intros name (N1 & N2 & N3)%not_elem_config_fields.
    unfold assigned. cbn [dict]. by rewrite !lookup_insert_ne.
Qed.

(** ** From the command line to the external tool *)









(** ** What Go depends on *)

(** X11. [Go] reads the three configuration attributes and the platform
    settings and nothing else: on two instances that agree on these it
    returns or raises the same and produces the same log records and the
    same process. *)
Theorem Go_reads_only_config (rcf : string -> string -> Z) (self1 self2 : Edk2Coverage) :
  (forall name, name ∈ config_fields -> dict self1 !! name = dict self2 !! name) ->
  PlatformSettings self1 = PlatformSettings self2 ->
  outcome (Go rcf self1) = outcome (Go rcf self2) /\
  events (Go rcf self1) = events (Go rcf self2).
Proof.
  intros Hsame Hps. rewrite !Go_unfold.
  rewrite <- (Hsame "coverage_files") by repeat constructor.
  rewrite <- (Hsame "output_dir") by repeat constructor.
  rewrite <- (Hsame "report_type") by repeat constructor.
  destruct (dict self1 !! "coverage_files") as [[|cf|l]|]; try done.
  destruct (dict self1 !! "output_dir") as [[|od|l]|]; try done.
  destruct (dict self1 !! "report_type") as [[|rt|l]|]; try done.
  unfold Go_invoked. cbn [outcome events]. by rewrite Hps.
Qed.

(** ** The further properties on concrete runs *)


Lemma Go_None_unguarded_witness :
  outcome (Go tool_ok no_output_dir_instance) = inl TypeError /\
  List.filter is_spawn (events (Go tool_ok no_output_dir_instance)) = [] /\
  List.filter is_log (events (Go tool_ok no_output_dir_instance)) = [].
Proof.
  apply (Go_None_unguarded tool_ok no_output_dir_instance "c.xml").
  - vm_compute. reflexivity.
  - left. vm_compute. reflexivity.
Defined.


Lemma file_filters_grow_witness :
  Go_file_filters (add_exclusion CoverageSettingsManager_base "Drivers/*")
    = Go_file_filters CoverageSettingsManager_base +:+ ";-" +:+ "Drivers/*" /\
  Go_file_filters (add_inclusion CoverageSettingsManager_base "Drivers/*")
    = Go_file_filters CoverageSettingsManager_base +:+ ";+" +:+ "Drivers/*" /\
  forall ps' : CoverageSettingsManager,
    Go_file_filters (add_inclusion ps' "Drivers/*")
    = Go_file_filters ps' +:+ ";+" +:+ "Drivers/*".
Proof.
  apply (file_filters_grow CoverageSettingsManager_base "Drivers/*"). reflexivity.
Defined.

Lemma file_filters_length_witness :
  S (String.length (build_file_filters ["a"] []))
    = (tokens_length ["a"] + tokens_length [])%nat /\
  String.length (Go_file_filters FooBar_platform)
    = (23 + tokens_length (GetCoverageExclusionList FooBar_platform)
          + tokens_length (GetCoverageInclusionList FooBar_platform))%nat.
Proof.
  apply (file_filters_length ["a"] [] FooBar_platform). discriminate.
Defined.

Lemma file_filters_unambiguous_witness :
  (build_file_filters (GetCoverageExclusionList FooBar_platform)
                      (GetCoverageInclusionList FooBar_platform)
   = build_file_filters (GetCoverageExclusionList CoverageSettingsManager_base)
                        (GetCoverageInclusionList CoverageSettingsManager_base)
   -> FooBar_platform = CoverageSettingsManager_base) /\
  (Go_file_filters FooBar_platform = Go_file_filters CoverageSettingsManager_base
   -> FooBar_platform = CoverageSettingsManager_base).
Proof.
  apply (file_filters_unambiguous FooBar_platform CoverageSettingsManager_base).
  - repeat constructor.
  - constructor.
Defined.

Lemma file_filters_no_escaping_witness :
  Go_file_filters (add_exclusion CoverageSettingsManager_base ("x" +:+ ";+" +:+ "y"))
  = Go_file_filters (add_inclusion (add_exclusion CoverageSettingsManager_base "x") "y").
Proof.
  apply (file_filters_no_escaping CoverageSettingsManager_base "x" "y"). reflexivity.
Defined.


Lemma Retrieve_frame_witness :
  exists self1,
    (forall name, name ∈ config_fields ->
       dict self1 !! name = Html_namespace !! name) /\
    (forall name, name ∉ config_fields ->
       dict self1 !! name = dict used_instance !! name) /\
    PlatformSettings self1 = PlatformSettings used_instance /\
    final (RetrieveCommandLineOptions sample_inherited_Retrieve Html_namespace
             used_instance)
      = final (sample_inherited_Retrieve Html_namespace self1) /\
    outcome (RetrieveCommandLineOptions sample_inherited_Retrieve Html_namespace
               used_instance)
      = outcome (sample_inherited_Retrieve Html_namespace self1).
Proof.
  apply (Retrieve_frame sample_inherited_Retrieve Html_namespace used_instance).
  intros m Hm.
  apply elem_config_fields in Hm as [-> | [-> | ->]];
    vm_compute; eexists; reflexivity.
Defined.


Example supplied_last_wins :
  supplied "--report-type"
           [("--report-type", "Html"); ("--output-dir", "out"); ("--report-type", "Latex")]
           (Some (VStr "Cobertura"))
  = Some (VStr "Latex").
Proof. reflexivity. Qed.

Example semicolon_pattern_collides :
  Go_file_filters {| GetCoverageExclusionList := ["a;+b"];
                     GetCoverageInclusionList := [] |}
  = Go_file_filters {| GetCoverageExclusionList := ["a"];
                       GetCoverageInclusionList := ["b"] |}.
Proof. reflexivity. Qed.

Lemma Go_reads_only_config_witness :
  outcome (Go tool_fails verbose_default_instance)
    = outcome (Go tool_fails (default_instance FooBar_platform)) /\
  events (Go tool_fails verbose_default_instance)
    = events (Go tool_fails (default_instance FooBar_platform)).
Proof.
  apply (Go_reads_only_config tool_fails verbose_default_instance
           (default_instance FooBar_platform)).
  - intros name Hname.
    apply elem_config_fields in Hname as [-> | [-> | ->]];
      vm_compute; reflexivity.
  - reflexivity.
Defined.
